(** * Scoring and guess submission of the web music quiz

    A shallow embedding of [WebMusicQuiz.calculate_score] and of the
    [/api/submit-guess] handler of [web_music_quiz.py], with the properties
    the specification states about them.

    Modelling choices.
    - A Python [str] is a [string]; each character stands for the code
      point of the same number (U+0000 to U+00FF).  [str.lower] and
      [str.strip] map this set of texts to itself, and the tables below are
      those of CPython on these code points.
    - [rapidfuzz.fuzz.ratio] is the normalized Indel similarity
      [100 * (1 - d / (len a + len b))], with [d] the number of character
      insertions and deletions turning one text into the other, and [100]
      when both texts are empty.  Its value is kept as an exact rational.
    - A value that comes out of a JSON body has the type [value]; a call of
      a method the value does not have is the error [AttributeError].
    - [WebMusicQuiz.get_currently_playing] is a function of what the
      Spotify client comes to ([Playback.spotify]); inside its
      [try: ... except Exception] every error ends alike, so a step is an
      option, [None] for a raised exception.  Its log line is not kept. *)

From Stdlib Require Import ZArith QArith Bool List Ascii String Lia.
Import ListNotations.

Close Scope Q_scope.
Open Scope string_scope.

(** ** Python values and errors *)

#[local] Set Warnings "-register-all".

Inductive value : Type :=
| VNone
| VBool (b : bool)
| VNum (q : Q)
| VStr (s : string)
| VList (l : list value)
| VDict (d : list (string * value)).

Inductive exn : Type :=
| AttributeError.

Inductive result (A : Type) : Type :=
| Ok (a : A)
| Raise (e : exn).

Arguments Ok {A} a.
Arguments Raise {A} e.

Definition bind {A B : Type} (m : result A) (k : A -> result B) : result B :=
  match m with
  | Ok a => k a
  | Raise e => Raise e
  end.

Notation "x <- m ;; k" := (bind m (fun x => k))
  (at level 61, m at next level, right associativity).

(** ** Text operations: [str.lower] and [str.strip] *)

Module Text.

(** [str.isspace] on one character. *)
Definition is_space (c : ascii) : bool :=
  let n := N_of_ascii c in
  ((9 <=? n) && (n <=? 13) || (28 <=? n) && (n <=? 32)
   || (n =? 133) || (n =? 160))%N.

(** Characters that [str.lower] changes: A-Z, and U+00C0 to U+00DE but for
    the multiplication sign U+00D7. *)
Definition is_upper (c : ascii) : bool :=
  let n := N_of_ascii c in
  ((65 <=? n) && (n <=? 90)
   || (192 <=? n) && (n <=? 222) && negb (n =? 215))%N.

Definition lower_char (c : ascii) : ascii :=
  if is_upper c then ascii_of_N (N_of_ascii c + 32) else c.

Fixpoint lower (s : string) : string :=
  match s with
  | EmptyString => EmptyString
  | String c s' => String (lower_char c) (lower s')
  end.

Fixpoint lstrip (s : string) : string :=
  match s with
  | EmptyString => EmptyString
  | String c s' => if is_space c then lstrip s' else s
  end.

Fixpoint rstrip (s : string) : string :=
  match s with
  | EmptyString => EmptyString
  | String c s' =>
      match rstrip s' with
      | EmptyString => if is_space c then EmptyString else String c EmptyString
      | r => String c r
      end
  end.

(** [s.strip()]: the leading run of whitespace goes, then the trailing one. *)
Definition strip (s : string) : string := rstrip (lstrip s).

(** Every character of the text is whitespace. *)
Fixpoint all_space (s : string) : bool :=
  match s with
  | EmptyString => true
  | String c s' => is_space c && all_space s'
  end.






End Text.

(** ** The similarity metric: [rapidfuzz.fuzz.ratio] *)

Module Fuzz.

(** Length of a longest common subsequence. *)
Fixpoint lcs (a b : string) : nat :=
  match a with
  | EmptyString => 0
  | String x a' =>
      (fix lcs_row (b : string) : nat :=
         match b with
         | EmptyString => 0
         | String y b' =>
             if Ascii.eqb x y then S (lcs a' b')
             else Nat.max (lcs a' b) (lcs_row b')
         end) b
  end.

(** Indel distance: insertions and deletions that turn [a] into [b]. *)
Definition indel_distance (a b : string) : nat :=
  String.length a + String.length b - 2 * lcs a b.

(** Levenshtein distance: insertions, deletions and substitutions. *)
Fixpoint levenshtein (a b : string) : nat :=
  match a with
  | EmptyString => String.length b
  | String x a' =>
      (fix lev_row (b : string) : nat :=
         match b with
         | EmptyString => String.length a
         | String y b' =>
             if Ascii.eqb x y then levenshtein a' b'
             else S (Nat.min (levenshtein a' b')
                             (Nat.min (levenshtein a' b) (lev_row b')))
         end) b
  end.

(** [fuzz.ratio(a, b)]: [norm_dist = dist / maximum] (zero when
    [maximum] is), [norm_sim = 1 - norm_dist], result [norm_sim * 100]. *)
Definition ratio (a b : string) : Q :=
  let maximum := String.length a + String.length b in
  let dist := indel_distance a b in
  let norm_dist :=
    if Nat.eqb maximum 0 then 0%Q
    else (Z.of_nat dist # Pos.of_nat maximum)%Q in
  ((1 - norm_dist) * 100)%Q.

(** The value of [ratio] from the distance [d] and the total length [m]. *)
Definition of_distance (d m : nat) : Q :=
  ((1 - (if Nat.eqb m 0 then 0 else Z.of_nat d # Pos.of_nat m)) * 100)%Q.

End Fuzz.

(** ** The quiz *)

Record ScoreResult : Type := mkScoreResult {
  total_points : Z;
  title_points : Z;
  artist_points : Z;
  response_time : value;
  time_message : string;
  title_similarity : Q;
  artist_similarity : Q
}.

(** [x >= n] on a similarity. *)
Definition Qge_bool (x n : Q) : bool := Qle_bool n x.

(** [v.lower().strip()]; only a [str] has these methods. *)
Definition lower_strip (v : value) : result string :=
  match v with
  | VStr s => Ok (Text.strip (Text.lower s))
  | _ => Raise AttributeError
  end.

Definition calculate_score
    (user_title user_artist correct_title correct_artist : value)
    (response_time : value) : result ScoreResult :=
  ut <- lower_strip user_title ;;
  ct <- lower_strip correct_title ;;
  let title_similarity := Fuzz.ratio ut ct in
  ua <- lower_strip user_artist ;;
  ca <- lower_strip correct_artist ;;
  let artist_similarity := Fuzz.ratio ua ca in
  let title_points :=
    (if Qge_bool title_similarity 90 then 70
     else if Qge_bool title_similarity 70 then 50
     else if Qge_bool title_similarity 50 then 30
     else 0)%Z in
  let artist_points :=
    (if Qge_bool artist_similarity 90 then 30
     else if Qge_bool artist_similarity 70 then 20
     else if Qge_bool artist_similarity 50 then 10
     else 0)%Z in
  Ok {| total_points := (title_points + artist_points)%Z;
        title_points := title_points;
        artist_points := artist_points;
        response_time := response_time;
        time_message := "";
        title_similarity := title_similarity;
        artist_similarity := artist_similarity |}.

(** ** The [/api/submit-guess] handler *)

(** Truth value of a Python object, as [or] and [not] take it. *)
Definition truthy (v : value) : bool :=
  match v with
  | VNone => false
  | VBool b => b
  | VNum q => negb (Qeq_bool q 0%Q)
  | VStr s => negb (String.eqb s "")
  | VList l => negb (Nat.eqb (List.length l) 0)
  | VDict d => negb (Nat.eqb (List.length d) 0)
  end.

Fixpoint lookup (k : string) (d : list (string * value)) : option value :=
  match d with
  | [] => None
  | (k', v) :: d' => if String.eqb k k' then Some v else lookup k d'
  end.

(** [data.get(k, default)]; only a [dict] has the method. *)
Definition get (data : value) (k : string) (default : value) : result value :=
  match data with
  | VDict d =>
      Ok match lookup k d with
         | Some v => v
         | None => default
         end
  | _ => Raise AttributeError
  end.

(** [v.strip()]. *)
Definition str_strip (v : value) : result string :=
  match v with
  | VStr s => Ok (Text.strip s)
  | _ => Raise AttributeError
  end.

(** The payload given to [jsonify]. *)
Inductive response : Type :=
| Failure (message : string)
| Success (score : ScoreResult)
          (user_answer : string * string)
          (correct_answer : value * value).

Definition success (r : response) : bool :=
  match r with
  | Failure _ => false
  | Success _ _ _ => true
  end.

(** [submit_guess], on the parsed body [request.json]. *)
Definition submit_guess (request_json : value) : result response :=
  let data := if truthy request_json then request_json else VDict [] in
  t <- get data "title" (VStr "") ;;
  user_title <- str_strip t ;;
  a <- get data "artist" (VStr "") ;;
  user_artist <- str_strip a ;;
  correct_title <- get data "correct_title" (VStr "") ;;
  correct_artist <- get data "correct_artist" (VStr "") ;;
  response_time <- get data "response_time" VNone ;;
  if negb (truthy (VStr user_title)) || negb (truthy (VStr user_artist))
  then Ok (Failure "Please provide both title and artist")
  else
    score <- calculate_score (VStr user_title) (VStr user_artist)
                             correct_title correct_artist response_time ;;
    Ok (Success score (user_title, user_artist)
                (correct_title, correct_artist)).

(** ** Vocabulary of the specification *)

(** Point tiers: thresholds 90, 70 and 50 are inclusive lower bounds, the
    highest one that the similarity reaches decides, and below 50 there are
    no points. *)
Definition tiered (hi mid lo : Z) (sim : Q) (pts : Z) : Prop :=
  ((90 <= sim)%Q -> pts = hi) /\
  ((70 <= sim)%Q /\ (sim < 90)%Q -> pts = mid) /\
  ((50 <= sim)%Q /\ (sim < 70)%Q -> pts = lo) /\
  ((sim < 50)%Q -> pts = 0%Z).


(** The field [k] of a JSON object is absent or a text. *)
Definition is_text (k : string) (d : list (string * value)) : bool :=
  match lookup k d with
  | None | Some (VStr _) => true
  | Some _ => false
  end.

(** The text in field [k], the empty text when the field is absent. *)
Definition text_of (k : string) (d : list (string * value)) : string :=
  match lookup k d with
  | Some (VStr s) => s
  | _ => ""
  end.

(** The value of field [k], [default] when the field is absent. *)
Definition field (k : string) (default : value)
    (d : list (string * value)) : value :=
  match lookup k d with
  | Some v => v
  | None => default
  end.

(** ** Further vocabulary *)

(** The value is a [str]. *)
Definition is_str (v : value) : bool :=
  match v with
  | VStr _ => true
  | _ => false
  end.

(** The text begins, or ends, with a whitespace character. *)
Definition first_is_space (s : string) : bool :=
  match s with
  | EmptyString => false
  | String c _ => Text.is_space c
  end.

Fixpoint last_is_space (s : string) : bool :=
  match s with
  | EmptyString => false
  | String c EmptyString => Text.is_space c
  | String _ s' => last_is_space s'
  end.

(** Bodies on which [submit_guess] cannot answer: a non-empty body that is
    no JSON object; an object whose title or artist is present and no text;
    an object with a title and an artist, both non-empty once stripped,
    whose correct title or correct artist is present and no text. *)
Definition ill_typed (body : value) : bool :=
  match body with
  | VDict d =>
      negb (is_text "title" d) || negb (is_text "artist" d) ||
      negb (String.eqb (Text.strip (text_of "title" d)) "") &&
      negb (String.eqb (Text.strip (text_of "artist" d)) "") &&
      negb (is_text "correct_title" d && is_text "correct_artist" d)
  | _ => truthy body
  end.

(** ** The track that is playing: [get_currently_playing] *)

Module Playback.

(** A step inside [try: ... except Exception], where every error ends the
    same way: [None] is "an exception was raised". *)
Definition attempt (A : Type) : Type := option A.

Definition and_then {A B : Type} (m : attempt A) (k : A -> attempt B)
  : attempt B :=
  match m with
  | Some a => k a
  | None => None
  end.

Notation "x <~ m ;; k" := (and_then m (fun x => k))
  (at level 61, m at next level, right associativity).

(** [v.get(k, default)]: an [AttributeError] unless [v] is a [dict]. *)
Definition dict_get (v : value) (k : string) (default : value)
  : attempt value :=
  match get v k default with
  | Ok x => Some x
  | Raise _ => None
  end.

(** [v[k]] for a [str] key: a [KeyError] when the [dict] lacks the key, a
    [TypeError] when [v] is no [dict]. *)
Definition subscript (v : value) (k : string) : attempt value :=
  match v with
  | VDict d => lookup k d
  | _ => None
  end.

(** [v[0]]: the first element of a list, the first character of a text;
    an [IndexError] when these are empty, a [KeyError] on a [dict] (whose
    keys are texts), a [TypeError] otherwise. *)
Definition first (v : value) : attempt value :=
  match v with
  | VList (x :: _) => Some x
  | VStr (String c _) => Some (VStr (String c ""))
  | _ => None
  end.

(** [v[:4]]: at most four leading characters of a text or elements of a
    list; a [TypeError] otherwise. *)
Definition slice4 (v : value) : attempt value :=
  match v with
  | VStr s => Some (VStr (substring 0 4 s))
  | VList l => Some (VList (firstn 4 l))
  | _ => None
  end.

Fixpoint characters (s : string) : list value :=
  match s with
  | EmptyString => []
  | String c s' => VStr (String c "") :: characters s'
  end.

(** The keys of a [dict], each once. *)
Fixpoint keys (d : list (string * value)) : list string :=
  match d with
  | [] => []
  | (k, _) :: d' =>
      k :: filter (fun k' => negb (String.eqb k' k)) (keys d')
  end.

(** What [for x in v] runs through: the elements of a list, the characters
    of a text, the keys of a [dict]; a [TypeError] otherwise. *)
Definition iterate (v : value) : attempt (list value) :=
  match v with
  | VList l => Some l
  | VStr s => Some (characters s)
  | VDict d => Some (map VStr (keys d))
  | _ => None
  end.

(** [[f(x) for x in l]]. *)
Fixpoint each {A B : Type} (f : A -> attempt B) (l : list A)
  : attempt (list B) :=
  match l with
  | [] => Some []
  | x :: l' => y <~ f x ;; ys <~ each f l' ;; Some (y :: ys)
  end.

Definition as_str (v : value) : attempt string :=
  match v with
  | VStr s => Some s
  | _ => None
  end.

(** [sep.join(l)]: a [TypeError] unless every element is a [str]. *)
Definition join (sep : string) (l : list value) : attempt string :=
  ss <~ each as_str l ;; Some (String.concat sep ss).

(** [v != 'track'], negated. *)
Definition is_track (v : value) : bool :=
  match v with
  | VStr s => String.eqb s "track"
  | _ => false
  end.

(** The [dict] that [get_currently_playing] returns. *)
Record Track : Type := mkTrack {
  id : value;
  title : value;
  artist : string;
  album : value;
  year : value;
  duration_ms : value;
  popularity : value;
  progress_ms : value;
  device : value;
  image_url : value
}.

(** What [self._get_sp()] and [sp.current_playback()] come to. *)
Inductive spotify : Type :=
| SpRaises
| NotLoggedIn
| PlaybackRaises
| Playback (current : value).

(** The body of the [try], from [current] on; the inner [None] is the
    [return None] of the source. *)
Definition playing (current : value) : attempt (option Track) :=
  if negb (truthy current) then Some None else
  is_playing <~ dict_get current "is_playing" (VBool false) ;;
  if negb (truthy is_playing) then Some None else
  item <~ dict_get current "item" VNone ;;
  if negb (truthy item) then Some None else
  type <~ dict_get item "type" VNone ;;
  if negb (is_track type) then Some None else
  id <~ subscript item "id" ;;
  title <~ subscript item "name" ;;
  artists <~ subscript item "artists" ;;
  artists <~ iterate artists ;;
  names <~ each (fun artist => subscript artist "name") artists ;;
  artist <~ join ", " names ;;
  album <~ subscript item "album" ;;
  album_name <~ subscript album "name" ;;
  release_date <~ subscript album "release_date" ;;
  year <~ (if truthy release_date then slice4 release_date
           else Some (VStr "Unknown")) ;;
  duration_ms <~ subscript item "duration_ms" ;;
  popularity <~ subscript item "popularity" ;;
  progress_ms <~ dict_get current "progress_ms" (VNum 0) ;;
  device <~ dict_get current "device" (VDict []) ;;
  device <~ dict_get device "name" (VStr "Unknown Device") ;;
  images <~ subscript album "images" ;;
  image_url <~ (if truthy images
                then image <~ first images ;; subscript image "url"
                else Some VNone) ;;
  Some (Some {| id := id; title := title; artist := artist;
                album := album_name; year := year;
                duration_ms := duration_ms; popularity := popularity;
                progress_ms := progress_ms; device := device;
                image_url := image_url |}).

Definition get_currently_playing (sp : spotify) : option Track :=
  match sp with
  | Playback current =>
      match playing current with
      | Some track => track
      | None => None
      end
  | _ => None
  end.

(** A playback as the Spotify Web API reports one. *)
Definition sample_album : list (string * value) :=
  [("name", VStr "Hot Space");
   ("release_date", VStr "1982-05-21");
   ("images", VList [VDict [("url", VStr "https://i.scdn.co/image/1")]])].

Definition sample_item : list (string * value) :=
  [("type", VStr "track");
   ("id", VStr "3z8h0TU7ReDPLIbEnYhWZb");
   ("name", VStr "Under Pressure");
   ("artists",
    VList [VDict [("name", VStr "Queen")];
           VDict [("name", VStr "David Bowie")]]);
   ("album", VDict sample_album);
   ("duration_ms", VNum 248440);
   ("popularity", VNum 80)].

Definition sample_current : list (string * value) :=
  [("is_playing", VBool true);
   ("progress_ms", VNum 1000);
   ("item", VDict sample_item)].

Definition sample_playback : value := VDict sample_current.

End Playback.

(** The character occurs in the text. *)
Fixpoint occurs (c : ascii) (s : string) : bool :=
  match s with
  | EmptyString => false
  | String d s' => Ascii.eqb c d || occurs c s'
  end.

(** No character of the first text occurs in the second. *)
Fixpoint disjoint (a b : string) : bool :=
  match a with
  | EmptyString => true
  | String c a' => negb (occurs c b) && disjoint a' b
  end.

(** ** Facts about [lower] and [strip] *)

Module TextFacts.
Import Text.


Lemma lower_char_idem (c : ascii) : lower_char (lower_char c) = lower_char c.
Proof. destruct c as [[] [] [] [] [] [] [] []]; reflexivity. Qed.


Lemma lower_idem (s : string) : lower (lower s) = lower s.
Proof.
  induction s as [|c s IH]; [reflexivity|].
  cbn [lower]; now rewrite lower_char_idem, IH.
Qed.


















Lemma strip_empty_all_space (s : string) :
  strip s = "" -> all_space s = true.
Proof.
  unfold strip; induction s as [|c s IH]; [reflexivity|].
  cbn [lstrip all_space]; destruct (is_space c) eqn:E; [exact IH|].
  cbn [rstrip]; rewrite E; destruct (rstrip s); discriminate.
Qed.

End TextFacts.

(** ** Facts about the similarity metric *)

Module FuzzFacts.
Import Fuzz.

Lemma lcs_cons (x y : ascii) (a b : string) :
  lcs (String x a) (String y b) =
  if Ascii.eqb x y then S (lcs a b)
  else Nat.max (lcs a (String y b)) (lcs (String x a) b).
Proof. reflexivity. Qed.

Lemma lcs_empty_r (a : string) : lcs a "" = 0.
Proof. destruct a; reflexivity. Qed.

Lemma lcs_comm (a b : string) : lcs a b = lcs b a.
Proof.
  revert b; induction a as [|x a IHa]; intro b.
  - now rewrite lcs_empty_r.
  - induction b as [|y b IHb]; [reflexivity|].
    rewrite !lcs_cons, (Ascii.eqb_sym y x).
    destruct (Ascii.eqb x y).
    + now rewrite IHa.
    + now rewrite IHa, IHb, Nat.max_comm.
Qed.

Lemma lcs_le_l (a b : string) : lcs a b <= String.length a.
Proof.
  revert b; induction a as [|x a IHa]; intro b; [apply Nat.le_refl|].
  induction b as [|y b IHb]; [apply Nat.le_0_l|].
  rewrite lcs_cons; destruct (Ascii.eqb x y).
  - specialize (IHa b); cbn [String.length]; lia.
  - specialize (IHa (String y b)); cbn [String.length] in *; lia.
Qed.

Lemma lcs_le_r (a b : string) : lcs a b <= String.length b.
Proof. rewrite lcs_comm; apply lcs_le_l. Qed.

Lemma lcs_diag (a : string) : lcs a a = String.length a.
Proof.
  induction a as [|x a IHa]; [reflexivity|].
  now rewrite lcs_cons, Ascii.eqb_refl, IHa.
Qed.

Lemma indel_distance_comm (a b : string) :
  indel_distance a b = indel_distance b a.
Proof.
  unfold indel_distance; now rewrite lcs_comm, Nat.add_comm.
Qed.

Lemma indel_distance_le (a b : string) :
  indel_distance a b <= String.length a + String.length b.
Proof. unfold indel_distance; lia. Qed.

Lemma indel_distance_diag (a : string) : indel_distance a a = 0.
Proof. unfold indel_distance; rewrite lcs_diag; lia. Qed.

Lemma indel_distance_empty_l (b : string) :
  indel_distance "" b = String.length b.
Proof. unfold indel_distance; cbn [lcs String.length]; lia. Qed.

Lemma ratio_of_distance (a b : string) :
  ratio a b =
  of_distance (indel_distance a b) (String.length a + String.length b).
Proof. reflexivity. Qed.

Lemma of_distance_range (d m : nat) :
  d <= m -> (0 <= of_distance d m <= 100)%Q.
Proof.
  intro H; unfold of_distance.
  destruct (Nat.eqb m 0) eqn:E.
  - split; unfold Qle; cbn; lia.
  - apply Nat.eqb_neq in E.
    unfold Qle, Qminus, Qplus, Qopp, Qmult; cbn [Qnum Qden].
    assert (Hm : Z.pos (Pos.of_nat m) = Z.of_nat m).
    { destruct m; [lia|]. rewrite <- Pos.of_nat_succ; lia. }
    rewrite ?Pos2Z.inj_mul, ?Hm; split; nia.
Qed.

Lemma of_distance_zero (m : nat) : (of_distance 0 m == 100)%Q.
Proof.
  unfold of_distance; destruct (Nat.eqb m 0).
  - reflexivity.
  - unfold Qeq, Qminus, Qplus, Qopp, Qmult; cbn [Qnum Qden Z.of_nat]; lia.
Qed.

Lemma of_distance_full (m : nat) : m <> 0 -> (of_distance m m == 0)%Q.
Proof.
  intro H; unfold of_distance.
  destruct (Nat.eqb m 0) eqn:E; [apply Nat.eqb_eq in E; contradiction|].
  unfold Qeq, Qminus, Qplus, Qopp, Qmult; cbn [Qnum Qden].
  assert (Hm : Z.pos (Pos.of_nat m) = Z.of_nat m).
  { destruct m; [lia|]. rewrite <- Pos.of_nat_succ; lia. }
  rewrite ?Pos2Z.inj_mul, ?Hm; lia.
Qed.

(** With the same total length, or a longer one, strictly fewer edits give a
    strictly larger value. *)
Lemma of_distance_lt (d1 m1 d2 m2 : nat) :
  d1 < d2 -> d2 <= m2 -> m2 <= m1 ->
  (of_distance d2 m2 < of_distance d1 m1)%Q.
Proof.
  intros Hd H2 Hm; unfold of_distance.
  destruct (Nat.eqb m2 0) eqn:E2; [apply Nat.eqb_eq in E2; lia|].
  destruct (Nat.eqb m1 0) eqn:E1; [apply Nat.eqb_eq in E1; lia|].
  apply Nat.eqb_neq in E1, E2.
  unfold Qlt, Qminus, Qplus, Qopp, Qmult; cbn [Qnum Qden].
  assert (H1' : Z.pos (Pos.of_nat m1) = Z.of_nat m1).
  { destruct m1; [lia|]. rewrite <- Pos.of_nat_succ; lia. }
  assert (H2' : Z.pos (Pos.of_nat m2) = Z.of_nat m2).
  { destruct m2; [lia|]. rewrite <- Pos.of_nat_succ; lia. }
  rewrite ?Pos2Z.inj_mul, ?H1', ?H2'; nia.
Qed.

Lemma ratio_comm (a b : string) : ratio a b = ratio b a.
Proof.
  rewrite !ratio_of_distance.
  now rewrite indel_distance_comm, Nat.add_comm.
Qed.

Lemma ratio_range (a b : string) : (0 <= ratio a b <= 100)%Q.
Proof.
  rewrite ratio_of_distance; apply of_distance_range, indel_distance_le.
Qed.

Lemma ratio_diag (a : string) : (ratio a a == 100)%Q.
Proof.
  rewrite ratio_of_distance, indel_distance_diag; apply of_distance_zero.
Qed.

Lemma ratio_empty_l (b : string) : b <> "" -> (ratio "" b == 0)%Q.
Proof.
  intro H; rewrite ratio_of_distance, indel_distance_empty_l.
  cbn [String.length Nat.add]; apply of_distance_full.
  destruct b; [contradiction|cbn; lia].
Qed.

End FuzzFacts.

(** ** Properties of [calculate_score] *)

Import Text Fuzz.

(** On texts the function returns, and each field of the record it returns
    is the expression the source has for it. *)
Lemma calculate_score_str (ut ua ct ca : string) (rt : value) :
  exists r,
    calculate_score (VStr ut) (VStr ua) (VStr ct) (VStr ca) rt = Ok r /\
    title_similarity r = ratio (strip (lower ut)) (strip (lower ct)) /\
    artist_similarity r = ratio (strip (lower ua)) (strip (lower ca)) /\
    title_points r =
      (if Qge_bool (title_similarity r) 90 then 70
       else if Qge_bool (title_similarity r) 70 then 50
       else if Qge_bool (title_similarity r) 50 then 30 else 0)%Z /\
    artist_points r =
      (if Qge_bool (artist_similarity r) 90 then 30
       else if Qge_bool (artist_similarity r) 70 then 20
       else if Qge_bool (artist_similarity r) 50 then 10 else 0)%Z /\
    total_points r = (title_points r + artist_points r)%Z /\
    response_time r = rt /\
    time_message r = "".
Proof.
  eexists; split; [reflexivity|]; cbn [title_similarity artist_similarity
    title_points artist_points total_points response_time time_message].
  repeat split.
Qed.

Lemma Qge_bool_true (x n : Q) : Qge_bool x n = true <-> (n <= x)%Q.
Proof. apply Qle_bool_iff. Qed.

Lemma Qge_bool_false (x n : Q) : Qge_bool x n = false <-> (x < n)%Q.
Proof.
  unfold Qge_bool; split; intro H.
  - apply Qnot_le_lt; intro C; apply Qle_bool_iff in C; congruence.
  - destruct (Qle_bool n x) eqn:E; [|reflexivity].
    apply Qle_bool_iff in E; exfalso; exact (Qlt_not_le _ _ H E).
Qed.

Lemma tiers_tiered (hi mid lo : Z) (sim : Q) :
  tiered hi mid lo sim
    (if Qge_bool sim 90 then hi
     else if Qge_bool sim 70 then mid
     else if Qge_bool sim 50 then lo else 0%Z).
Proof.
  unfold tiered.
  destruct (Qge_bool sim 90) eqn:E90;
    [apply Qge_bool_true in E90 | apply Qge_bool_false in E90];
  (destruct (Qge_bool sim 70) eqn:E70;
    [apply Qge_bool_true in E70 | apply Qge_bool_false in E70]);
  (destruct (Qge_bool sim 50) eqn:E50;
    [apply Qge_bool_true in E50 | apply Qge_bool_false in E50]);
  repeat split; intros; try reflexivity; exfalso;
  repeat match goal with H : _ /\ _ |- _ => destruct H end;
  unfold Qle, Qlt in *; cbn [Qnum Qden] in *; lia.
Qed.

(** C1: for all texts, [calculate_score] returns a record whose title points
    are 70, 50, 30 or 0 as the title similarity is at least 90, at least 70,
    at least 50 or less, and whose artist points are 30, 20, 10 or 0 by the
    same thresholds on the artist similarity; the bounds are inclusive, the
    highest that holds decides, and the two are tiered independently. *)
Theorem calculate_score_tiers (ut ua ct ca : string) (rt : value) :
  exists r,
    calculate_score (VStr ut) (VStr ua) (VStr ct) (VStr ca) rt = Ok r /\
    tiered 70 50 30 (title_similarity r) (title_points r) /\
    tiered 30 20 10 (artist_similarity r) (artist_points r).
Proof.
  destruct (calculate_score_str ut ua ct ca rt)
    as (r & E & _ & _ & Ht & Ha & _).
  exists r; split; [exact E|].
  rewrite Ht, Ha; split; apply tiers_tiered.
Qed.

(** The tier changes exactly at 90, 70 and 50: a similarity of 90 earns the
    top tier and one of 800/9 the next, and so on down. *)
Example tier_boundaries :
  let title_of g c :=
    match calculate_score (VStr g) (VStr "q") (VStr c) (VStr "q") VNone with
    | Ok r => Some (Qred (title_similarity r), title_points r)
    | Raise _ => None
    end in
  title_of "abcdefghiX" "abcdefghij" = Some (90%Q, 70%Z) /\
  title_of "abcdefghX" "abcdefghi" = Some ((800 # 9)%Q, 50%Z) /\
  title_of "abcdefgXYZ" "abcdefghij" = Some (70%Q, 50%Z) /\
  title_of "abcdefXYZ" "abcdefghi" = Some ((200 # 3)%Q, 30%Z) /\
  title_of "aX" "ab" = Some (50%Q, 30%Z) /\
  title_of "abcdXYZWV" "abcdefghi" = Some ((400 # 9)%Q, 0%Z).
Proof. vm_compute; repeat split. Qed.

(** C2: for all texts the record returned has
    [total_points = title_points + artist_points], title points among
    0, 30, 50, 70, artist points among 0, 10, 20, 30, a total among the
    multiples of ten from 0 to 100, and so a total between 0 and 100. *)
Theorem calculate_score_points (ut ua ct ca : string) (rt : value) :
  exists r,
    calculate_score (VStr ut) (VStr ua) (VStr ct) (VStr ca) rt = Ok r /\
    total_points r = (title_points r + artist_points r)%Z /\
    In (title_points r) [0; 30; 50; 70]%Z /\
    In (artist_points r) [0; 10; 20; 30]%Z /\
    In (total_points r) [0; 10; 20; 30; 40; 50; 60; 70; 80; 90; 100]%Z /\
    (0 <= total_points r <= 100)%Z.
Proof.
  destruct (calculate_score_str ut ua ct ca rt)
    as (r & E & _ & _ & Ht & Ha & Hs & _).
  exists r; split; [exact E|]; split; [exact Hs|].
  rewrite Hs, Ht, Ha.
  destruct (Qge_bool (title_similarity r) 90),
           (Qge_bool (title_similarity r) 70),
           (Qge_bool (title_similarity r) 50),
           (Qge_bool (artist_similarity r) 90),
           (Qge_bool (artist_similarity r) 70),
           (Qge_bool (artist_similarity r) 50);
    cbn; intuition lia.
Qed.

Lemma tier_top (hi mid lo : Z) (sim : Q) :
  (sim == 100)%Q ->
  (if Qge_bool sim 90 then hi
   else if Qge_bool sim 70 then mid
   else if Qge_bool sim 50 then lo else 0%Z) = hi.
Proof.
  intro H.
  assert (E : Qge_bool sim 90 = true).
  { apply Qge_bool_true; rewrite H; unfold Qle; cbn; lia. }
  now rewrite E.
Qed.

Lemma tier_bottom (hi mid lo : Z) (sim : Q) :
  (sim == 0)%Q ->
  (if Qge_bool sim 90 then hi
   else if Qge_bool sim 70 then mid
   else if Qge_bool sim 50 then lo else 0%Z) = 0%Z.
Proof.
  intro H.
  assert (E : forall n : Q, (0 < n)%Q -> Qge_bool sim n = false).
  { intros n Hn; apply Qge_bool_false; now rewrite H. }
  rewrite !E; [reflexivity| | |]; unfold Qlt; cbn; lia.
Qed.

(** C3: the similarity is the same whichever of the two texts comes first,
    it lies between 0 and 100, and it is 100 for two equal texts; so a guess
    that repeats the correct title and artist has both similarities 100 and
    100 points in total. *)
Theorem similarity_symmetric_bounded_identity :
  (forall a b : string, ratio a b = ratio b a) /\
  (forall a b : string, (0 <= ratio a b <= 100)%Q) /\
  (forall a : string, (ratio a a == 100)%Q) /\
  (forall (t a : string) (rt : value),
     exists r,
       calculate_score (VStr t) (VStr a) (VStr t) (VStr a) rt = Ok r /\
       (title_similarity r == 100)%Q /\
       (artist_similarity r == 100)%Q /\
       total_points r = 100%Z).
Proof.
  split; [exact FuzzFacts.ratio_comm|].
  split; [exact FuzzFacts.ratio_range|].
  split; [exact FuzzFacts.ratio_diag|].
  intros t a rt.
  destruct (calculate_score_str t a t a rt)
    as (r & E & Hts & Has & Ht & Ha & Hs & _).
  assert (Tt : (title_similarity r == 100)%Q)
    by (rewrite Hts; apply FuzzFacts.ratio_diag).
  assert (Ta : (artist_similarity r == 100)%Q)
    by (rewrite Has; apply FuzzFacts.ratio_diag).
  exists r; repeat split; try assumption.
  rewrite Hs, Ht, Ha, (tier_top _ _ _ _ Tt), (tier_top _ _ _ _ Ta).
  reflexivity.
Qed.

(** C7: two calls that differ only in the artist guess return the same title
    points and the same title similarity; likewise two calls that differ
    only in the title guess return the same artist points and similarity;
    the total is the sum of the two parts. *)
Theorem title_and_artist_independent
    (ut ut' ua ua' ct ca : string) (rt : value) :
  exists r r1 r2,
    calculate_score (VStr ut) (VStr ua) (VStr ct) (VStr ca) rt = Ok r /\
    calculate_score (VStr ut) (VStr ua') (VStr ct) (VStr ca) rt = Ok r1 /\
    calculate_score (VStr ut') (VStr ua) (VStr ct) (VStr ca) rt = Ok r2 /\
    title_points r1 = title_points r /\
    title_similarity r1 = title_similarity r /\
    artist_points r2 = artist_points r /\
    artist_similarity r2 = artist_similarity r /\
    total_points r = (title_points r + artist_points r)%Z /\
    total_points r1 = (title_points r + artist_points r1)%Z /\
    total_points r2 = (title_points r2 + artist_points r)%Z.
Proof.
  destruct (calculate_score_str ut ua ct ca rt)
    as (r & E & Hts & Has & Ht & Ha & Hs & _).
  destruct (calculate_score_str ut ua' ct ca rt)
    as (r1 & E1 & Hts1 & _ & Ht1 & _ & Hs1 & _).
  destruct (calculate_score_str ut' ua ct ca rt)
    as (r2 & E2 & _ & Has2 & _ & Ha2 & Hs2 & _).
  exists r, r1, r2.
  assert (Et : title_points r1 = title_points r)
    by (rewrite Ht1, Ht, Hts1, Hts; reflexivity).
  assert (Ea : artist_points r2 = artist_points r)
    by (rewrite Ha2, Ha, Has2, Has; reflexivity).
  repeat split; try assumption; try congruence.
Qed.

(** C8: with the correct answer ("Bohemian Rhapsody", "Queen") and the guess
    ("bohemian rapsody", "queen") the title similarity is at least 90, the
    title earns 70 points, the artist 30, and the total is 100. *)
Theorem bohemian_rhapsody_scenario :
  exists r,
    calculate_score (VStr "bohemian rapsody") (VStr "queen")
                    (VStr "Bohemian Rhapsody") (VStr "Queen") VNone = Ok r /\
    (90 <= title_similarity r)%Q /\
    title_points r = 70%Z /\
    artist_points r = 30%Z /\
    total_points r = 100%Z.
Proof.
  eexists; split; [vm_compute; reflexivity|].
  cbn [title_similarity title_points artist_points total_points].
  repeat split; unfold Qle; cbn; lia.
Qed.

(** C9: the record returned carries the response time it was given, its
    time message is the empty text, and two calls that differ only in the
    response time agree on every other field. *)
Theorem response_time_passed_through
    (ut ua ct ca : string) (rt rt' : value) :
  exists r r',
    calculate_score (VStr ut) (VStr ua) (VStr ct) (VStr ca) rt = Ok r /\
    calculate_score (VStr ut) (VStr ua) (VStr ct) (VStr ca) rt' = Ok r' /\
    response_time r = rt /\
    response_time r' = rt' /\
    time_message r = "" /\
    time_message r' = "" /\
    total_points r' = total_points r /\
    title_points r' = title_points r /\
    artist_points r' = artist_points r /\
    title_similarity r' = title_similarity r /\
    artist_similarity r' = artist_similarity r.
Proof.
  do 2 eexists; split; [reflexivity|]; split; [reflexivity|].
  cbn [response_time time_message total_points title_points artist_points
       title_similarity artist_similarity].
  repeat split.
Qed.

Lemma ratio_empty_nonempty (b : string) :
  0 < String.length b -> (ratio "" b == 0)%Q.
Proof.
  intro H; apply FuzzFacts.ratio_empty_l; intro E; subst b.
  exact (Nat.lt_irrefl 0 H).
Qed.

(** C4, the claim as it stands fails: the guess ("", "") against the
    correct answer (" ", " "), two texts that are not empty, has both
    similarities 100 and 100 points in total. *)
Lemma empty_guess_blank_answer :
  exists r,
    calculate_score (VStr "") (VStr "") (VStr " ") (VStr " ") VNone = Ok r /\
    title_similarity r = 100%Q /\
    artist_similarity r = 100%Q /\
    total_points r = 100%Z.
Proof. eexists; split; [vm_compute; reflexivity|]; repeat split. Qed.

(** C4, amended: for all texts [calculate_score] returns a whole record and
    raises nothing; when both texts of a pair are empty once lower-cased and
    stripped their similarity is 100; and the guess ("", "") against a
    correct title and artist that are not empty once stripped has both
    similarities 0 and no points. *)
Theorem calculate_score_total :
  (forall (ut ua ct ca : string) (rt : value),
     exists r,
       calculate_score (VStr ut) (VStr ua) (VStr ct) (VStr ca) rt = Ok r /\
       (strip (lower ut) = "" -> strip (lower ct) = "" ->
        (title_similarity r == 100)%Q) /\
       (strip (lower ua) = "" -> strip (lower ca) = "" ->
        (artist_similarity r == 100)%Q)) /\
  (forall (ct ca : string) (rt : value),
     0 < String.length (strip (lower ct)) ->
     0 < String.length (strip (lower ca)) ->
     exists r,
       calculate_score (VStr "") (VStr "") (VStr ct) (VStr ca) rt = Ok r /\
       (title_similarity r == 0)%Q /\
       (artist_similarity r == 0)%Q /\
       title_points r = 0%Z /\
       artist_points r = 0%Z /\
       total_points r = 0%Z).
Proof.
  split.
  - intros ut ua ct ca rt.
    destruct (calculate_score_str ut ua ct ca rt)
      as (r & E & Hts & Has & _).
    exists r; split; [exact E|]; split; intros H1 H2.
    + rewrite Hts, H1, H2; apply FuzzFacts.ratio_diag.
    + rewrite Has, H1, H2; apply FuzzFacts.ratio_diag.
  - intros ct ca rt Hct Hca.
    destruct (calculate_score_str "" "" ct ca rt)
      as (r & E & Hts & Has & Ht & Ha & Hs & _).
    change (strip (lower "")) with "" in Hts, Has.
    assert (Tt : (title_similarity r == 0)%Q)
      by (rewrite Hts; now apply ratio_empty_nonempty).
    assert (Ta : (artist_similarity r == 0)%Q)
      by (rewrite Has; now apply ratio_empty_nonempty).
    assert (Pt : title_points r = 0%Z)
      by (rewrite Ht; now apply tier_bottom).
    assert (Pa : artist_points r = 0%Z)
      by (rewrite Ha; now apply tier_bottom).
    exists r; repeat split; try assumption.
    now rewrite Hs, Pt, Pa.
Qed.

Lemma calculate_score_total_witness :
  exists r,
    calculate_score (VStr "") (VStr "")
                    (VStr "Bohemian Rhapsody") (VStr "Queen") VNone = Ok r /\
    (title_similarity r == 0)%Q /\
    (artist_similarity r == 0)%Q /\
    title_points r = 0%Z /\
    artist_points r = 0%Z /\
    total_points r = 0%Z.
Proof.
  apply (proj2 calculate_score_total "Bohemian Rhapsody" "Queen" VNone);
    vm_compute; lia.
Defined.





Lemma title_tier_mono (x y : Q) :
  (x <= y)%Q ->
  ((if Qge_bool x 90 then 70
    else if Qge_bool x 70 then 50
    else if Qge_bool x 50 then 30 else 0) <=
   (if Qge_bool y 90 then 70
    else if Qge_bool y 70 then 50
    else if Qge_bool y 50 then 30 else 0))%Z.
Proof.
  intro H.
  assert (M : forall n : Q, Qge_bool x n = true -> Qge_bool y n = true).
  { intros n Hn; apply Qge_bool_true in Hn; apply Qge_bool_true.
    now apply Qle_trans with x. }
  destruct (Qge_bool x 90) eqn:E90; [rewrite (M _ E90); lia|].
  destruct (Qge_bool x 70) eqn:E70;
    [rewrite (M _ E70); destruct (Qge_bool y 90); lia|].
  destruct (Qge_bool x 50) eqn:E50;
    [rewrite (M _ E50); destruct (Qge_bool y 90), (Qge_bool y 70); lia|].
  destruct (Qge_bool y 90), (Qge_bool y 70), (Qge_bool y 50); lia.
Qed.

(** C6, the claim as it stands fails: against the correct title "abc" the
    guess "x" needs fewer edits than the guess "abcdefgh" (4 against 5
    insertions and deletions, 3 against 5 when substitutions count as one
    edit), yet it earns 0 title points where "abcdefgh" earns 30. *)
Lemma fewer_edits_fewer_points :
  exists r1 r2,
    calculate_score (VStr "x") (VStr "q") (VStr "abc") (VStr "q") VNone
      = Ok r1 /\
    calculate_score (VStr "abcdefgh") (VStr "q") (VStr "abc") (VStr "q") VNone
      = Ok r2 /\
    indel_distance "x" "abc" < indel_distance "abcdefgh" "abc" /\
    levenshtein "x" "abc" < levenshtein "abcdefgh" "abc" /\
    (title_points r1 < title_points r2)%Z.
Proof.
  do 2 eexists; split; [vm_compute; reflexivity|].
  split; [vm_compute; reflexivity|].
  cbn [title_points]; repeat split; vm_compute; lia.
Qed.

(** C6, amended: against a fixed correct title, when the guess [g1] is,
    lower-cased and stripped, at least as long as the guess [g2] and needs
    strictly fewer character insertions and deletions to become the correct
    title, lower-cased and stripped, then [g1] earns at least the title
    points of [g2]; the other arguments are the same in both calls. *)
Theorem title_points_monotone
    (g1 g2 ua ct ca : string) (rt : value) :
  String.length (strip (lower g2)) <= String.length (strip (lower g1)) ->
  indel_distance (strip (lower g1)) (strip (lower ct)) <
  indel_distance (strip (lower g2)) (strip (lower ct)) ->
  exists r1 r2,
    calculate_score (VStr g1) (VStr ua) (VStr ct) (VStr ca) rt = Ok r1 /\
    calculate_score (VStr g2) (VStr ua) (VStr ct) (VStr ca) rt = Ok r2 /\
    (title_similarity r2 < title_similarity r1)%Q /\
    (title_points r2 <= title_points r1)%Z.
Proof.
  intros Hlen Hd.
  destruct (calculate_score_str g1 ua ct ca rt)
    as (r1 & E1 & Hts1 & _ & Ht1 & _).
  destruct (calculate_score_str g2 ua ct ca rt)
    as (r2 & E2 & Hts2 & _ & Ht2 & _).
  assert (Hlt : (title_similarity r2 < title_similarity r1)%Q).
  { rewrite Hts1, Hts2, !FuzzFacts.ratio_of_distance.
    apply FuzzFacts.of_distance_lt;
      [exact Hd | apply FuzzFacts.indel_distance_le | lia]. }
  exists r1, r2; repeat split; try assumption.
  rewrite Ht1, Ht2; apply title_tier_mono, Qlt_le_weak, Hlt.
Qed.

Lemma title_points_monotone_witness :
  exists r1 r2,
    calculate_score (VStr "Abx") (VStr "q") (VStr "abc") (VStr "q") VNone
      = Ok r1 /\
    calculate_score (VStr "axy") (VStr "q") (VStr "abc") (VStr "q") VNone
      = Ok r2 /\
    (title_similarity r2 < title_similarity r1)%Q /\
    (title_points r2 <= title_points r1)%Z.
Proof.
  apply (title_points_monotone "Abx" "axy" "q" "abc" "q" VNone);
    vm_compute; lia.
Defined.

(** ** Properties of [submit_guess] *)

Lemma truthy_VStr (s : string) : truthy (VStr s) = false <-> s = "".
Proof.
  cbn [truthy]; destruct (String.eqb s "") eqn:E; cbn [negb].
  - apply String.eqb_eq in E; split; [intros _; exact E|reflexivity].
  - apply String.eqb_neq in E; split; [discriminate|contradiction].
Qed.

Lemma data_of_dict (d : list (string * value)) :
  (if truthy (VDict d) then VDict d else VDict []) = VDict d.
Proof. destruct d; reflexivity. Qed.

Lemma submit_guess_falsy (body : value) :
  truthy body = false ->
  submit_guess body = Ok (Failure "Please provide both title and artist").
Proof. intro H; unfold submit_guess; rewrite H; reflexivity. Qed.

(** C10, the claim as it stands fails: a body with no title and the artist
    5 gets no answer, the handler raises; so does a body with a title and
    an artist whose correct title is null. *)
Lemma submit_guess_raises :
  lookup "title" [("artist", VNum 5)] = None /\
  submit_guess (VDict [("artist", VNum 5)]) = Raise AttributeError /\
  submit_guess (VDict [("title", VStr "Yesterday"); ("artist", VStr "Beatles");
                       ("correct_title", VNone);
                       ("correct_artist", VStr "The Beatles")])
    = Raise AttributeError.
Proof. repeat split. Qed.

(** C10, amended: a body that is empty or null is answered with the message
    to provide both title and artist.  For a body that is a JSON object
    whose title and artist are texts where present: when either is absent
    or empty once stripped the answer is that message with success false,
    whatever the other fields hold, so nothing is scored; otherwise the
    handler scores the stripped guess against the correct title and artist
    as they came (the empty text where absent) and, when these two are
    texts, answers with success true and the score. *)
Theorem submit_guess_answers :
  (forall body : value,
     truthy body = false ->
     submit_guess body = Ok (Failure "Please provide both title and artist")) /\
  (forall d : list (string * value),
     is_text "title" d = true -> is_text "artist" d = true ->
     let user_title := strip (text_of "title" d) in
     let user_artist := strip (text_of "artist" d) in
     let correct_title := field "correct_title" (VStr "") d in
     let correct_artist := field "correct_artist" (VStr "") d in
     let response_time := field "response_time" VNone d in
     (user_title = "" \/ user_artist = "" ->
      submit_guess (VDict d)
        = Ok (Failure "Please provide both title and artist")) /\
     (0 < String.length user_title -> 0 < String.length user_artist ->
      submit_guess (VDict d)
        = (score <- calculate_score (VStr user_title) (VStr user_artist)
                      correct_title correct_artist response_time ;;
           Ok (Success score (user_title, user_artist)
                       (correct_title, correct_artist))) /\
      (is_text "correct_title" d = true ->
       is_text "correct_artist" d = true ->
       exists score,
         calculate_score (VStr user_title) (VStr user_artist)
           correct_title correct_artist response_time = Ok score /\
         submit_guess (VDict d)
           = Ok (Success score (user_title, user_artist)
                         (correct_title, correct_artist)) /\
         success (Success score (user_title, user_artist)
                          (correct_title, correct_artist)) = true))).
Proof.
  split; [exact submit_guess_falsy|].
  intros d Ht Ha user_title user_artist correct_title correct_artist
    response_time.
  assert (E : submit_guess (VDict d) =
    if negb (truthy (VStr user_title)) || negb (truthy (VStr user_artist))
    then Ok (Failure "Please provide both title and artist")
    else (score <- calculate_score (VStr user_title) (VStr user_artist)
                     correct_title correct_artist response_time ;;
          Ok (Success score (user_title, user_artist)
                      (correct_title, correct_artist)))).
  { unfold submit_guess; rewrite data_of_dict.
    subst user_title user_artist correct_title correct_artist response_time.
    unfold is_text, text_of, field, get, str_strip in *.
    destruct (lookup "title" d) as [[]|]; try discriminate;
    destruct (lookup "artist" d) as [[]|]; try discriminate;
    reflexivity. }
  split.
  - intros [H|H]; rewrite E.
    + apply truthy_VStr in H; now rewrite H.
    + apply truthy_VStr in H; rewrite H.
      now destruct (truthy (VStr user_title)).
  - intros H1 H2.
    assert (T1 : truthy (VStr user_title) = true).
    { destruct (truthy (VStr user_title)) eqn:T; [reflexivity|].
      apply truthy_VStr in T; rewrite T in H1; inversion H1. }
    assert (T2 : truthy (VStr user_artist) = true).
    { destruct (truthy (VStr user_artist)) eqn:T; [reflexivity|].
      apply truthy_VStr in T; rewrite T in H2; inversion H2. }
    rewrite E, T1, T2; cbn [negb orb]; split; [reflexivity|].
    intros Hct Hca.
    assert (exists s, correct_title = VStr s) as [s1 ->].
    { subst correct_title; unfold is_text, field in *.
      destruct (lookup "correct_title" d) as [[]|]; try discriminate;
        eexists; reflexivity. }
    assert (exists s, correct_artist = VStr s) as [s2 ->].
    { subst correct_artist; unfold is_text, field in *.
      destruct (lookup "correct_artist" d) as [[]|]; try discriminate;
        eexists; reflexivity. }
    destruct (calculate_score_str user_title user_artist s1 s2 response_time)
      as (score & Es & _).
    exists score; rewrite Es; repeat split.
Qed.

Lemma submit_guess_answers_witness :
  exists score,
    calculate_score (VStr "Yesterday") (VStr "beatles")
      (VStr "Yesterday") (VStr "The Beatles") (VNum 3) = Ok score /\
    submit_guess
      (VDict [("title", VStr " Yesterday "); ("artist", VStr "beatles");
              ("correct_title", VStr "Yesterday");
              ("correct_artist", VStr "The Beatles");
              ("response_time", VNum 3)])
      = Ok (Success score ("Yesterday", "beatles")
                    (VStr "Yesterday", VStr "The Beatles")) /\
    success (Success score ("Yesterday", "beatles")
                     (VStr "Yesterday", VStr "The Beatles")) = true.
Proof.
  refine (proj2 (proj2 (proj2 submit_guess_answers
            [("title", VStr " Yesterday "); ("artist", VStr "beatles");
             ("correct_title", VStr "Yesterday");
             ("correct_artist", VStr "The Beatles");
             ("response_time", VNum 3)] eq_refl eq_refl) _ _)
          eq_refl eq_refl);
    vm_compute; lia.
Defined.

(** ** Further properties of the similarity and of [calculate_score] *)

Lemma lcs_full_eq (a b : string) :
  lcs a b = String.length a -> String.length a = String.length b -> a = b.
Proof.
  revert b; induction a as [|x a IH]; intros [|y b] H L;
    try discriminate; [reflexivity|].
  rewrite FuzzFacts.lcs_cons in H; cbn [String.length] in *.
  destruct (Ascii.eqb x y) eqn:E.
  - apply Ascii.eqb_eq in E; subst y; f_equal; apply IH; lia.
  - pose proof (FuzzFacts.lcs_le_l a (String y b)).
    pose proof (FuzzFacts.lcs_le_r (String x a) b); lia.
Qed.

Lemma indel_distance_zero_eq (a b : string) :
  indel_distance a b = 0 -> a = b.
Proof.
  unfold indel_distance; intro H.
  pose proof (FuzzFacts.lcs_le_l a b); pose proof (FuzzFacts.lcs_le_r a b).
  apply lcs_full_eq; lia.
Qed.

Lemma pos_of_nat_Z (m : nat) : m <> 0 -> Z.pos (Pos.of_nat m) = Z.of_nat m.
Proof. destruct m; [contradiction|]; intros _; rewrite <- Pos.of_nat_succ; lia. Qed.

(** The threshold tests on a similarity, as tests on integers. *)
Lemma Qge_of_distance (d m : nat) (t : Z) :
  m <> 0 ->
  Qge_bool (of_distance d m) (inject_Z t) =
  (t * Z.of_nat m <=? 100 * (Z.of_nat m - Z.of_nat d))%Z.
Proof.
  intro Hm; unfold of_distance.
  destruct (Nat.eqb m 0) eqn:E; [apply Nat.eqb_eq in E; contradiction|].
  unfold Qge_bool, Qle_bool, Qminus, Qplus, Qopp, Qmult, inject_Z;
    cbn [Qnum Qden].
  rewrite ?Pos2Z.inj_mul, (pos_of_nat_Z m Hm).
  destruct (Z.leb_spec (t * Z.of_nat m) (100 * (Z.of_nat m - Z.of_nat d)));
    [apply Z.leb_le | apply Z.leb_gt]; nia.
Qed.

Lemma of_distance_100 (d m : nat) :
  m <> 0 -> (of_distance d m == 100)%Q -> d = 0.
Proof.
  intros Hm; unfold of_distance.
  destruct (Nat.eqb m 0) eqn:E; [apply Nat.eqb_eq in E; contradiction|].
  unfold Qeq, Qminus, Qplus, Qopp, Qmult; cbn [Qnum Qden].
  rewrite ?Pos2Z.inj_mul, (pos_of_nat_Z m Hm); nia.
Qed.

Lemma ratio_100_eq (a b : string) : (ratio a b == 100)%Q <-> a = b.
Proof.
  split; [|intros ->; apply FuzzFacts.ratio_diag].
  rewrite FuzzFacts.ratio_of_distance; intro H.
  destruct (Nat.eq_dec (String.length a + String.length b) 0) as [Z|NZ].
  - destruct a, b; try reflexivity; cbn in Z; lia.
  - apply indel_distance_zero_eq; exact (of_distance_100 _ _ NZ H).
Qed.

Lemma calculate_score_not_str (ut ua ct ca rt : value) :
  is_str ut && is_str ua && is_str ct && is_str ca = false ->
  calculate_score ut ua ct ca rt = Raise AttributeError.
Proof.
  unfold calculate_score, lower_strip.
  destruct ut; cbn [bind is_str andb]; try reflexivity;
  destruct ct; cbn [bind is_str andb]; try reflexivity;
  destruct ua; cbn [bind is_str andb]; try reflexivity;
  destruct ca; cbn [bind is_str andb]; try reflexivity;
  rewrite ?andb_false_r; discriminate.
Qed.

Lemma all_str_inv (ut ua ct ca : value) :
  is_str ut && is_str ua && is_str ct && is_str ca = true ->
  exists a b c d, ut = VStr a /\ ua = VStr b /\ ct = VStr c /\ ca = VStr d.
Proof.
  destruct ut, ua, ct, ca; try discriminate; intros _.
  do 4 eexists; repeat split.
Qed.

(** X1: [calculate_score] returns a record exactly when its four text
    arguments are all of type [str]; with any other value among them (null,
    a number, a list, ...) it raises [AttributeError]. *)
Theorem calculate_score_raises_iff_not_str
    (ut ua ct ca rt : value) :
  match calculate_score ut ua ct ca rt with
  | Ok _ => is_str ut && is_str ua && is_str ct && is_str ca = true
  | Raise e =>
      e = AttributeError /\
      is_str ut && is_str ua && is_str ct && is_str ca = false
  end.
Proof.
  destruct (is_str ut && is_str ua && is_str ct && is_str ca) eqn:T.
  - destruct (all_str_inv _ _ _ _ T) as (a & b & c & d & -> & -> & -> & ->).
    destruct (calculate_score_str a b c d rt) as (r & -> & _); reflexivity.
  - rewrite (calculate_score_not_str _ _ _ _ rt T); now split.
Qed.

(** X2: scoring is symmetric in guess and answer: with the guess and the
    correct answer exchanged, [calculate_score] gives the same result, be
    it a record or an error. *)
Theorem calculate_score_swap (ut ua ct ca rt : value) :
  calculate_score ct ca ut ua rt = calculate_score ut ua ct ca rt.
Proof.
  unfold calculate_score, lower_strip.
  destruct ut, ct; cbn [bind]; try reflexivity;
  destruct ua, ca; cbn [bind]; try reflexivity.
  now rewrite (FuzzFacts.ratio_comm (strip (lower s0)) (strip (lower s))),
    (FuzzFacts.ratio_comm (strip (lower s2)) (strip (lower s1))).
Qed.

(** X3: a similarity of 100 is reached only by equal texts: the title
    similarity is 100 exactly when guess and correct title are the same
    once lower-cased and stripped, and likewise for the artist. *)
Theorem similarity_100_iff_same_text (ut ua ct ca : string) (rt : value) :
  exists r,
    calculate_score (VStr ut) (VStr ua) (VStr ct) (VStr ca) rt = Ok r /\
    ((title_similarity r == 100)%Q <->
     strip (lower ut) = strip (lower ct)) /\
    ((artist_similarity r == 100)%Q <->
     strip (lower ua) = strip (lower ca)).
Proof.
  destruct (calculate_score_str ut ua ct ca rt) as (r & E & Hts & Has & _).
  exists r; split; [exact E|].
  rewrite Hts, Has; split; apply ratio_100_eq.
Qed.

(** X4: the total is 100 exactly when both similarities are at least 90,
    and it is 0 exactly when both are below 50. *)
Theorem total_points_extremes (ut ua ct ca : string) (rt : value) :
  exists r,
    calculate_score (VStr ut) (VStr ua) (VStr ct) (VStr ca) rt = Ok r /\
    (total_points r = 100%Z <->
     (90 <= title_similarity r)%Q /\ (90 <= artist_similarity r)%Q) /\
    (total_points r = 0%Z <->
     (title_similarity r < 50)%Q /\ (artist_similarity r < 50)%Q).
Proof.
  destruct (calculate_score_str ut ua ct ca rt)
    as (r & E & _ & _ & Ht & Ha & Hs & _).
  exists r; split; [exact E|].
  rewrite Hs, Ht, Ha.
  destruct (Qge_bool (title_similarity r) 90) eqn:T90;
  destruct (Qge_bool (title_similarity r) 70) eqn:T70;
  destruct (Qge_bool (title_similarity r) 50) eqn:T50;
  destruct (Qge_bool (artist_similarity r) 90) eqn:A90;
  destruct (Qge_bool (artist_similarity r) 70) eqn:A70;
  destruct (Qge_bool (artist_similarity r) 50) eqn:A50;
  repeat match goal with
         | H : Qge_bool _ _ = true |- _ => apply Qge_bool_true in H
         | H : Qge_bool _ _ = false |- _ => apply Qge_bool_false in H
         end;
  unfold Qle, Qlt in *; cbn [Qnum Qden] in *;
  (split; (split; [intro; try split; lia | intros [? ?]; lia])).
Qed.

Lemma length_app (a b : string) :
  String.length (a ++ b) = String.length a + String.length b.
Proof. induction a as [|x a IH]; [reflexivity|]; cbn; now rewrite IH. Qed.

Lemma lcs_skip (c : ascii) (b : string) :
  lcs b (String c b) = String.length b.
Proof.
  revert c; induction b as [|y b IH]; intro c; [reflexivity|].
  rewrite FuzzFacts.lcs_cons; cbn [String.length].
  destruct (Ascii.eqb y c); [now rewrite IH|].
  rewrite FuzzFacts.lcs_diag; cbn [String.length].
  pose proof (FuzzFacts.lcs_le_l b (String c (String y b))); lia.
Qed.

Lemma lcs_insert (a b : string) (c : ascii) :
  lcs (a ++ b) (a ++ String c b) = String.length (a ++ b).
Proof.
  induction a as [|x a IH]; [apply lcs_skip|].
  cbn [append]; rewrite FuzzFacts.lcs_cons, Ascii.eqb_refl, IH; reflexivity.
Qed.

Lemma lcs_subst (a b : string) (x y : ascii) :
  Ascii.eqb x y = false ->
  lcs (a ++ String x b) (a ++ String y b) = String.length (a ++ b).
Proof.
  intro H; induction a as [|z a IH].
  - cbn [append]; rewrite FuzzFacts.lcs_cons, H, lcs_skip.
    rewrite (FuzzFacts.lcs_comm (String x b) b), lcs_skip; lia.
  - cbn [append]; rewrite FuzzFacts.lcs_cons, Ascii.eqb_refl, IH; reflexivity.
Qed.

(** The title tier from the edit distance [d] and the total length [m]. *)
Lemma title_tier_of_distance (d m : nat) :
  m <> 0 ->
  (if Qge_bool (of_distance d m) 90 then 70
   else if Qge_bool (of_distance d m) 70 then 50
   else if Qge_bool (of_distance d m) 50 then 30 else 0)%Z =
  if (10 * d <=? m)%nat then 70%Z
  else if (10 * d <=? 3 * m)%nat then 50%Z
  else if (2 * d <=? m)%nat then 30%Z else 0%Z.
Proof.
  intro Hm.
  change 90%Q with (inject_Z 90); change 70%Q with (inject_Z 70);
    change 50%Q with (inject_Z 50).
  rewrite !Qge_of_distance by exact Hm.
  repeat match goal with
         | |- context [(?a <=? ?b)%Z] => destruct (Z.leb_spec a b)
         | |- context [(?a <=? ?b)%nat] => destruct (Nat.leb_spec a b)
         end; try reflexivity; lia.
Qed.

(** X5: one character missing from the guess, or one too many, costs the
    top tier only for short titles.  With [n] the length of the shorter of
    the two texts (lower-cased and stripped) the title earns 70 points when
    [n] is at least 5, 50 when it is 2 to 4, 30 when it is 1, and none when
    the shorter text is empty. *)
Theorem one_character_missing
    (ut ua ct ca : string) (rt : value) (a b : string) (c : ascii) :
  (strip (lower ut) = a ++ b /\ strip (lower ct) = a ++ String c b) \/
  (strip (lower ut) = a ++ String c b /\ strip (lower ct) = a ++ b) ->
  exists r,
    calculate_score (VStr ut) (VStr ua) (VStr ct) (VStr ca) rt = Ok r /\
    title_points r =
      let n := String.length (a ++ b) in
      if (5 <=? n)%nat then 70%Z else if (2 <=? n)%nat then 50%Z
      else if (1 <=? n)%nat then 30%Z else 0%Z.
Proof.
  intro H.
  destruct (calculate_score_str ut ua ct ca rt) as (r & E & Hts & _ & Ht & _).
  exists r; split; [exact E|].
  assert (R : title_similarity r =
              of_distance 1 (2 * String.length (a ++ b) + 1)).
  { rewrite Hts; destruct H as [[-> ->]|[-> ->]];
      [|rewrite FuzzFacts.ratio_comm];
      rewrite FuzzFacts.ratio_of_distance; unfold indel_distance;
      rewrite lcs_insert, !length_app; cbn [String.length];
      f_equal; lia. }
  rewrite Ht, R, title_tier_of_distance by lia; cbv zeta.
  repeat match goal with
         | |- context [(?a <=? ?b)%nat] => destruct (Nat.leb_spec a b)
         end; try reflexivity; lia.
Qed.

Lemma one_character_missing_witness :
  exists r,
    calculate_score (VStr "Yesterda") (VStr "q") (VStr "Yesterday") (VStr "q")
      VNone = Ok r /\
    title_points r = 70%Z.
Proof.
  apply (one_character_missing "Yesterda" "q" "Yesterday" "q" VNone
           "yesterda" "" "y").
  left; split; reflexivity.
Defined.

(** X6: one wrong character in a guess of the right length counts as two
    edits.  With [n] the length of the title (lower-cased and stripped) the
    title earns 70 points when [n] is at least 10, 50 when it is 4 to 9,
    30 when it is 2 or 3, and none for a title of one character. *)
Theorem one_character_wrong
    (ut ua ct ca : string) (rt : value) (a b : string) (x y : ascii) :
  Ascii.eqb x y = false ->
  strip (lower ut) = a ++ String x b ->
  strip (lower ct) = a ++ String y b ->
  exists r,
    calculate_score (VStr ut) (VStr ua) (VStr ct) (VStr ca) rt = Ok r /\
    title_points r =
      let n := String.length (a ++ String y b) in
      if (10 <=? n)%nat then 70%Z else if (4 <=? n)%nat then 50%Z
      else if (2 <=? n)%nat then 30%Z else 0%Z.
Proof.
  intros Hxy Hu Hc.
  destruct (calculate_score_str ut ua ct ca rt) as (r & E & Hts & _ & Ht & _).
  exists r; split; [exact E|].
  assert (R : title_similarity r =
              of_distance 2 (2 * String.length (a ++ String y b))).
  { rewrite Hts, Hu, Hc, FuzzFacts.ratio_of_distance; unfold indel_distance.
    rewrite (lcs_subst a b x y Hxy), !length_app; cbn [String.length].
    f_equal; lia. }
  assert (N : 0 < String.length (a ++ String y b))
    by (rewrite length_app; cbn [String.length]; lia).
  rewrite Ht, R, title_tier_of_distance by lia; cbv zeta.
  repeat match goal with
         | |- context [(?a <=? ?b)%nat] => destruct (Nat.leb_spec a b)
         end; try reflexivity; lia.
Qed.

Lemma one_character_wrong_witness :
  exists r,
    calculate_score (VStr "Yesterdey") (VStr "q") (VStr "Yesterday")
      (VStr "q") VNone = Ok r /\
    title_points r = 50%Z.
Proof.
  apply (one_character_wrong "Yesterdey" "q" "Yesterday" "q" VNone
           "yesterd" "y" "e" "a"); reflexivity.
Defined.

(** ** Further properties of [submit_guess] *)

Lemma lstrip_first (s : string) : first_is_space (lstrip s) = false.
Proof.
  induction s as [|c s IH]; [reflexivity|].
  cbn [lstrip]; destruct (is_space c) eqn:E; [exact IH|exact E].
Qed.

Lemma rstrip_first (s : string) :
  first_is_space s = false -> first_is_space (rstrip s) = false.
Proof.
  destruct s as [|c s]; [reflexivity|].
  cbn [first_is_space rstrip]; intro E; rewrite E.
  destruct (rstrip s); exact E.
Qed.

Lemma rstrip_last (s : string) : last_is_space (rstrip s) = false.
Proof.
  induction s as [|c s IH]; [reflexivity|].
  cbn [rstrip]; destruct (rstrip s) as [|d r] eqn:R.
  - destruct (is_space c) eqn:E; [reflexivity|exact E].
  - exact IH.
Qed.

Lemma lstrip_decomposition (s : string) :
  exists w, all_space w = true /\ s = w ++ lstrip s.
Proof.
  induction s as [|c s (w & Hw & IH)]; [now exists ""|].
  cbn [lstrip]; destruct (is_space c) eqn:E.
  - exists (String c w); cbn [all_space append]; rewrite E, Hw, <- IH.
    now split.
  - now exists "".
Qed.

Lemma rstrip_decomposition (s : string) :
  exists w, all_space w = true /\ s = rstrip s ++ w.
Proof.
  induction s as [|c s (w & Hw & IH)]; [now exists ""|].
  cbn [rstrip]; destruct (rstrip s) as [|d r] eqn:R.
  - cbn [append] in IH; subst w; destruct (is_space c) eqn:E.
    + exists (String c s); cbn [all_space append]; now rewrite E, Hw.
    + now exists s.
  - exists w; split; [exact Hw|]; cbn [append] in *; now rewrite <- IH.
Qed.

(** [strip] takes whitespace from the two ends and nothing else. *)
Lemma strip_decomposition (s : string) :
  exists w1 w2,
    all_space w1 = true /\ all_space w2 = true /\
    s = w1 ++ strip s ++ w2 /\
    first_is_space (strip s) = false /\ last_is_space (strip s) = false.
Proof.
  destruct (lstrip_decomposition s) as (w1 & H1 & E1).
  destruct (rstrip_decomposition (lstrip s)) as (w2 & H2 & E2).
  exists w1, w2; unfold strip; repeat split; try assumption.
  - now rewrite <- E2.
  - apply rstrip_first, lstrip_first.
  - apply rstrip_last.
Qed.

Lemma is_text_field_str (k : string) (d : list (string * value)) :
  is_str (field k (VStr "") d) = is_text k d.
Proof.
  unfold field, is_text; destruct (lookup k d) as [[]|]; reflexivity.
Qed.

(** [submit_guess] on a JSON object, by the types of its fields. *)
Lemma submit_guess_dict (d : list (string * value)) :
  submit_guess (VDict d) =
  if is_text "title" d && is_text "artist" d then
    if String.eqb (strip (text_of "title" d)) "" ||
       String.eqb (strip (text_of "artist" d)) ""
    then Ok (Failure "Please provide both title and artist")
    else
      score <- calculate_score (VStr (strip (text_of "title" d)))
                 (VStr (strip (text_of "artist" d)))
                 (field "correct_title" (VStr "") d)
                 (field "correct_artist" (VStr "") d)
                 (field "response_time" VNone d) ;;
      Ok (Success score
            (strip (text_of "title" d), strip (text_of "artist" d))
            (field "correct_title" (VStr "") d,
             field "correct_artist" (VStr "") d))
  else Raise AttributeError.
Proof.
  unfold submit_guess; rewrite data_of_dict.
  unfold is_text, text_of, field, get, str_strip.
  destruct (lookup "title" d) as [[]|]; cbn [bind andb]; try reflexivity;
  destruct (lookup "artist" d) as [[]|]; cbn [bind andb truthy];
    try reflexivity;
  rewrite ?negb_involutive; reflexivity.
Qed.

(** X7: whatever the body, [submit_guess] raises [AttributeError] exactly
    on the ill-typed bodies: a non-empty body that is no JSON object, a
    title or artist that is present and no text, or, once title and artist
    are both non-empty, a correct title or artist that is present and no
    text.  With an empty title or artist the correct fields are never
    looked into. *)
Theorem submit_guess_raises_iff_ill_typed (body : value) :
  match submit_guess body with
  | Ok _ => ill_typed body = false
  | Raise e => e = AttributeError /\ ill_typed body = true
  end.
Proof.
  destruct body as [| b | q | s | l | d];
    try (cbn [ill_typed];
         match goal with
         | |- context [truthy ?v] => destruct (truthy v) eqn:T
         end;
         unfold submit_guess; rewrite T; cbn; auto).
  rewrite submit_guess_dict; cbn [ill_typed].
  destruct (is_text "title" d), (is_text "artist" d);
    cbn [andb negb orb]; auto.
  destruct (String.eqb (strip (text_of "title" d)) "");
    cbn [andb negb orb]; [reflexivity|].
  destruct (String.eqb (strip (text_of "artist" d)) "");
    cbn [andb negb orb]; [reflexivity|].
  destruct (is_text "correct_title" d && is_text "correct_artist" d) eqn:T;
    cbn [negb].
  - rewrite <- !is_text_field_str in T.
    destruct (field "correct_title" (VStr "") d); try discriminate.
    destruct (field "correct_artist" (VStr "") d); try discriminate.
    destruct (calculate_score_str (strip (text_of "title" d))
                (strip (text_of "artist" d)) s s0
                (field "response_time" VNone d)) as (r & -> & _).
    reflexivity.
  - rewrite calculate_score_not_str; [now split|].
    now rewrite !is_text_field_str.
Qed.

Lemma calculate_score_ok_inv (ut ua ct ca rt : value) (r : ScoreResult) :
  calculate_score ut ua ct ca rt = Ok r ->
  is_str ct = true /\ is_str ca = true /\ response_time r = rt.
Proof.
  intro H.
  destruct (is_str ut && is_str ua && is_str ct && is_str ca) eqn:T.
  - destruct (all_str_inv _ _ _ _ T) as (a & b & c & d & -> & -> & -> & ->).
    destruct (calculate_score_str a b c d rt)
      as (r' & E & _ & _ & _ & _ & _ & Hrt & _).
    rewrite E in H; injection H as <-; now repeat split.
  - rewrite (calculate_score_not_str _ _ _ _ rt T) in H; discriminate.
Qed.

Lemma eqb_empty_false_length (s : string) :
  String.eqb s "" = false -> 0 < String.length s.
Proof. destruct s; [discriminate|cbn; lia]. Qed.

(** X8: an answer with success true is never given for a blank guess or an
    unscored one.  Whatever the body, when [submit_guess] answers with a
    score, the body is a JSON object whose title and artist are texts; the
    title and artist echoed are those texts with the whitespace at their
    ends removed and nothing else, not empty and with no whitespace at
    either end; the correct title and artist are echoed as they came and
    are texts; and the score is that of [calculate_score] on these, with
    the response time of the body. *)
Theorem submit_guess_success_sound
    (body : value) (score : ScoreResult) (ut ua : string) (ct ca : value) :
  submit_guess body = Ok (Success score (ut, ua) (ct, ca)) ->
  exists d t a w1 w2 w3 w4,
    body = VDict d /\
    lookup "title" d = Some (VStr t) /\
    lookup "artist" d = Some (VStr a) /\
    all_space w1 = true /\ all_space w2 = true /\ t = w1 ++ ut ++ w2 /\
    all_space w3 = true /\ all_space w4 = true /\ a = w3 ++ ua ++ w4 /\
    0 < String.length ut /\ 0 < String.length ua /\
    first_is_space ut = false /\ last_is_space ut = false /\
    first_is_space ua = false /\ last_is_space ua = false /\
    ct = field "correct_title" (VStr "") d /\
    ca = field "correct_artist" (VStr "") d /\
    is_str ct = true /\ is_str ca = true /\
    calculate_score (VStr ut) (VStr ua) ct ca
      (field "response_time" VNone d) = Ok score /\
    response_time score = field "response_time" VNone d.
Proof.
  intro H.
  destruct body as [| b | q | s | l | d];
    try (unfold submit_guess in H;
         match type of H with
         | context [truthy ?v] => destruct (truthy v)
         end; discriminate H).
  rewrite submit_guess_dict in H.
  destruct (is_text "title" d && is_text "artist" d) eqn:T;
    [|discriminate H].
  destruct (String.eqb (strip (text_of "title" d)) "") eqn:Et;
    [discriminate H|].
  destruct (String.eqb (strip (text_of "artist" d)) "") eqn:Ea;
    [discriminate H|].
  cbn [orb] in H.
  destruct (calculate_score _ _ _ _ _) as [r|e] eqn:Es; [|discriminate H].
  cbn [bind] in H; injection H as -> <- <- <- <-.
  destruct (calculate_score_ok_inv _ _ _ _ _ _ Es) as (Sct & Sca & Hrt).
  assert (Lt : lookup "title" d = Some (VStr (text_of "title" d))).
  { unfold text_of, is_text in *.
    destruct (lookup "title" d) as [[]|]; try discriminate; reflexivity. }
  assert (La : lookup "artist" d = Some (VStr (text_of "artist" d))).
  { apply andb_prop in T as [_ T]; unfold text_of, is_text in *.
    destruct (lookup "artist" d) as [[]|]; try discriminate; reflexivity. }
  destruct (strip_decomposition (text_of "title" d))
    as (w1 & w2 & H1 & H2 & D1 & F1 & L1).
  destruct (strip_decomposition (text_of "artist" d))
    as (w3 & w4 & H3 & H4 & D2 & F2 & L2).
  exists d, (text_of "title" d), (text_of "artist" d), w1, w2, w3, w4.
  repeat split; try assumption; try reflexivity;
    now apply eqb_empty_false_length.
Qed.

Lemma submit_guess_success_sound_witness :
  exists score d t a w1 w2 w3 w4,
    VDict [("title", VStr " Yesterday "); ("artist", VStr "beatles");
           ("correct_title", VStr "Yesterday");
           ("correct_artist", VStr "The Beatles");
           ("response_time", VNum 3)] = VDict d /\
    lookup "title" d = Some (VStr t) /\
    lookup "artist" d = Some (VStr a) /\
    all_space w1 = true /\ all_space w2 = true /\
    t = w1 ++ "Yesterday" ++ w2 /\
    all_space w3 = true /\ all_space w4 = true /\
    a = w3 ++ "beatles" ++ w4 /\
    0 < String.length "Yesterday" /\ 0 < String.length "beatles" /\
    first_is_space "Yesterday" = false /\ last_is_space "Yesterday" = false /\
    first_is_space "beatles" = false /\ last_is_space "beatles" = false /\
    VStr "Yesterday" = field "correct_title" (VStr "") d /\
    VStr "The Beatles" = field "correct_artist" (VStr "") d /\
    is_str (VStr "Yesterday") = true /\ is_str (VStr "The Beatles") = true /\
    calculate_score (VStr "Yesterday") (VStr "beatles") (VStr "Yesterday")
      (VStr "The Beatles") (field "response_time" VNone d) = Ok score /\
    response_time score = field "response_time" VNone d.
Proof.
  eexists; apply submit_guess_success_sound; vm_compute; reflexivity.
Defined.

(** ** Texts with nothing in common *)

Lemma lcs_grow_r (a : string) :
  forall (b : string) (y : ascii), lcs a b <= lcs a (String y b).
Proof.
  induction a as [|x a IH]; intros b y; [apply Nat.le_refl|].
  assert (B : forall t, lcs (String x a) t <= S (lcs a t)).
  { intro t; induction t as [|z t IHt]; [apply Nat.le_0_l|].
    rewrite FuzzFacts.lcs_cons; pose proof (IH t z).
    destruct (Ascii.eqb x z); lia. }
  rewrite FuzzFacts.lcs_cons; destruct (Ascii.eqb x y).
  - apply B.
  - lia.
Qed.

Lemma lcs_zero_cons (x : ascii) (a b : string) :
  lcs (String x a) b = 0 <-> occurs x b = false /\ lcs a b = 0.
Proof.
  induction b as [|y b IH]; [rewrite !FuzzFacts.lcs_empty_r; now split|].
  rewrite FuzzFacts.lcs_cons; cbn [occurs].
  destruct (Ascii.eqb x y); cbn [orb].
  - split; [discriminate|intros [? _]; discriminate].
  - pose proof (lcs_grow_r a b y) as G.
    split.
    + intro M; assert (M1 : lcs (String x a) b = 0) by lia.
      apply IH in M1; split; [tauto|lia].
    + intros [M1 M2]; assert (M3 : lcs a b = 0) by lia.
      assert (M4 : lcs (String x a) b = 0) by (apply IH; now split). lia.
Qed.

Lemma lcs_zero_disjoint (a b : string) : lcs a b = 0 <-> disjoint a b = true.
Proof.
  induction a as [|x a IH]; [now split|].
  rewrite lcs_zero_cons, IH; cbn [disjoint].
  rewrite andb_true_iff, negb_true_iff; reflexivity.
Qed.

Lemma of_distance_0 (d m : nat) :
  m <> 0 -> d <= m -> ((of_distance d m == 0)%Q <-> d = m).
Proof.
  intros Hm Hd; unfold of_distance.
  destruct (Nat.eqb m 0) eqn:E; [apply Nat.eqb_eq in E; contradiction|].
  unfold Qeq, Qminus, Qplus, Qopp, Qmult; cbn [Qnum Qden].
  rewrite ?Pos2Z.inj_mul, (pos_of_nat_Z m Hm); split; intro H; [nia|subst; nia].
Qed.

Lemma ratio_0_disjoint (a b : string) :
  0 < String.length a + String.length b ->
  ((ratio a b == 0)%Q <-> disjoint a b = true).
Proof.
  intro H; rewrite FuzzFacts.ratio_of_distance, <- lcs_zero_disjoint.
  rewrite of_distance_0 by (try apply FuzzFacts.indel_distance_le; lia).
  unfold indel_distance.
  pose proof (FuzzFacts.lcs_le_l a b); pose proof (FuzzFacts.lcs_le_r a b).
  lia.
Qed.

(** X11: a similarity of 0 means nothing in common.  Unless guess and
    correct title are both empty once lower-cased and stripped (then the
    similarity is 100), the title similarity is 0 exactly when no character
    of the one occurs in the other. *)
Theorem similarity_0_iff_disjoint (ut ua ct ca : string) (rt : value) :
  0 < String.length (strip (lower ut)) + String.length (strip (lower ct)) ->
  exists r,
    calculate_score (VStr ut) (VStr ua) (VStr ct) (VStr ca) rt = Ok r /\
    ((title_similarity r == 0)%Q <->
     disjoint (strip (lower ut)) (strip (lower ct)) = true).
Proof.
  intro H.
  destruct (calculate_score_str ut ua ct ca rt) as (r & E & Hts & _).
  exists r; split; [exact E|].
  rewrite Hts; now apply ratio_0_disjoint.
Qed.

Lemma similarity_0_iff_disjoint_witness :
  exists r,
    calculate_score (VStr "Help!") (VStr "q") (VStr "Yesterday") (VStr "q")
      VNone = Ok r /\
    ((title_similarity r == 0)%Q <->
     disjoint (strip (lower "Help!")) (strip (lower "Yesterday")) = true).
Proof.
  apply (similarity_0_iff_disjoint "Help!" "q" "Yesterday" "q" VNone).
  vm_compute; lia.
Defined.

(** ** Properties of [get_currently_playing] *)

Module PlaybackFacts.
Import Playback.

Lemma dict_get_inv (v : value) (k : string) (default x : value) :
  dict_get v k default = Some x ->
  exists d, v = VDict d /\ x = field k default d.
Proof.
  destruct v; try discriminate; unfold dict_get, get, field.
  intro H; injection H as <-; eexists; split; reflexivity.
Qed.

Lemma subscript_inv (v : value) (k : string) (x : value) :
  subscript v k = Some x -> exists d, v = VDict d /\ lookup k d = Some x.
Proof.
  destruct v; try discriminate; intro H; eexists; split; [reflexivity|exact H].
Qed.

Lemma is_track_inv (v : value) : is_track v = true -> v = VStr "track".
Proof.
  destruct v; try discriminate; cbn [is_track]; intro H.
  now apply String.eqb_eq in H; subst.
Qed.

Lemma field_truthy_present (k : string) (d : list (string * value)) (x : value) :
  field k VNone d = x -> truthy x = true -> lookup k d = Some x.
Proof.
  unfold field; destruct (lookup k d); intros <- H; [reflexivity|discriminate].
Qed.

Lemma each_as_str_inv (l : list value) (ss : list string) :
  each as_str l = Some ss -> l = map VStr ss.
Proof.
  revert ss; induction l as [|v l IH]; intros ss H; cbn [each] in H.
  - injection H as <-; reflexivity.
  - destruct v; try discriminate; cbn [as_str and_then] in H.
    destruct (each as_str l) as [ss'|]; [|discriminate].
    cbn [and_then] in H; injection H as <-; cbn [map]; now rewrite (IH ss').
Qed.

Lemma each_subscript_inv (k : string) (l names : list value) :
  each (fun a => subscript a k) l = Some names ->
  Forall2 (fun a n => subscript a k = Some n) l names.
Proof.
  revert names; induction l as [|a l IH]; intros names H; cbn [each] in H.
  - injection H as <-; constructor.
  - destruct (subscript a k) eqn:E; [|discriminate]; cbn [and_then] in H.
    destruct (each _ l) as [ns|]; [|discriminate].
    cbn [and_then] in H; injection H as <-; constructor; auto.
Qed.

Lemma join_inv (sep : string) (l : list value) (s : string) :
  join sep l = Some s ->
  exists names, l = map VStr names /\ s = String.concat sep names.
Proof.
  unfold join; destruct (each as_str l) as [ss|] eqn:E; [|discriminate].
  cbn [and_then]; intro H; injection H as <-.
  exists ss; split; [now apply each_as_str_inv|reflexivity].
Qed.

Lemma Forall2_names (k : string) (l : list value) (names : list string) :
  Forall2 (fun a n => subscript a k = Some n) l (map VStr names) ->
  Forall2 (fun a n => subscript a k = Some (VStr n)) l names.
Proof.
  revert l; induction names as [|n names IH]; intros l H;
    inversion H; subst; constructor; auto.
Qed.

Ltac step H :=
  match type of H with
  | and_then ?m _ = _ =>
      let E := fresh "E" in
      destruct m eqn:E; cbn [and_then] in H; [|discriminate H]
  | (if ?c then _ else _) = _ =>
      let C := fresh "C" in
      destruct c eqn:C; [discriminate H |]
  end.

(** X9: a track is returned only for a track that is playing.  When
    [get_currently_playing] returns a track, the playback is a JSON object
    whose [is_playing] is true and whose item is an object of type "track";
    id, title, duration and popularity are the item's, the album name is
    the album's, the artist is the names of the item's artists joined by
    ", ", the year is the first four characters of the release date
    ("Unknown" for an empty one), the progress is the playback's (0 when
    absent), the device is the name of the playback's device object
    ("Unknown Device" when either is absent), and the image is the URL of
    the album's first image (null without images). *)
Theorem playing_track_sound (sp : spotify) (t : Track) :
  get_currently_playing sp = Some t ->
  exists cur item alb dev artists objs names release_date images,
    sp = Playback (VDict cur) /\
    truthy (field "is_playing" (VBool false) cur) = true /\
    lookup "item" cur = Some (VDict item) /\
    lookup "type" item = Some (VStr "track") /\
    lookup "id" item = Some (id t) /\
    lookup "name" item = Some (title t) /\
    lookup "artists" item = Some artists /\
    iterate artists = Some objs /\
    Forall2 (fun o n => subscript o "name" = Some (VStr n)) objs names /\
    artist t = String.concat ", " names /\
    lookup "album" item = Some (VDict alb) /\
    lookup "name" alb = Some (album t) /\
    lookup "release_date" alb = Some release_date /\
    (if truthy release_date then slice4 release_date
     else Some (VStr "Unknown")) = Some (year t) /\
    lookup "duration_ms" item = Some (duration_ms t) /\
    lookup "popularity" item = Some (popularity t) /\
    progress_ms t = field "progress_ms" (VNum 0) cur /\
    field "device" (VDict []) cur = VDict dev /\
    device t = field "name" (VStr "Unknown Device") dev /\
    lookup "images" alb = Some images /\
    (if truthy images then image <~ first images ;; subscript image "url"
     else Some VNone) = Some (image_url t).
Proof.
  intro H; destruct sp as [| | |current]; try discriminate.
  cbn [get_currently_playing] in H.
  destruct (playing current) as [[t'|]|] eqn:P; try discriminate.
  injection H as ->; unfold playing in P.
  repeat step P.
  injection P as <-; cbn [id title artist album year duration_ms popularity
                          progress_ms device image_url].
  repeat match goal with
         | H : dict_get _ _ _ = Some _ |- _ =>
             apply dict_get_inv in H; destruct H as (? & ? & ?)
         | H : subscript ?v _ = Some _ |- _ =>
             is_var v; apply subscript_inv in H; destruct H as (? & ? & ?)
         end; subst.
  repeat match goal with
         | H1 : ?a = VDict ?x, H2 : ?a = VDict ?y |- _ =>
             rewrite H1 in H2; injection H2 as H2; subst y
         end.
  apply negb_false_iff in C0, C1, C2.
  apply is_track_inv in C2.
  match goal with
  | H : join _ _ = Some _ |- _ => apply join_inv in H; destruct H as (names & -> & ->)
  end.
  match goal with
  | H : each _ _ = Some _ |- _ => apply each_subscript_inv, Forall2_names in H
  end.
  match goal with
  | H : field "item" VNone ?c = VDict ?i |- _ =>
      rewrite H in C1; apply (field_truthy_present _ _ _ H) in C1
  end.
  match goal with
  | H : field "type" VNone _ = VStr "track" |- _ =>
      apply field_truthy_present in H; [|reflexivity]
  end.
  repeat match goal with
         | H : VDict _ = VDict _ |- _ => injection H as H; subst
         end.
  do 9 eexists; repeat split; try eassumption; try reflexivity.
Qed.

Lemma playing_track_sound_witness :
  exists t cur item alb dev artists objs names release_date images,
    Playback sample_playback = Playback (VDict cur) /\
    truthy (field "is_playing" (VBool false) cur) = true /\
    lookup "item" cur = Some (VDict item) /\
    lookup "type" item = Some (VStr "track") /\
    lookup "id" item = Some (id t) /\
    lookup "name" item = Some (title t) /\
    lookup "artists" item = Some artists /\
    iterate artists = Some objs /\
    Forall2 (fun o n => subscript o "name" = Some (VStr n)) objs names /\
    artist t = String.concat ", " names /\
    lookup "album" item = Some (VDict alb) /\
    lookup "name" alb = Some (album t) /\
    lookup "release_date" alb = Some release_date /\
    (if truthy release_date then slice4 release_date
     else Some (VStr "Unknown")) = Some (year t) /\
    lookup "duration_ms" item = Some (duration_ms t) /\
    lookup "popularity" item = Some (popularity t) /\
    progress_ms t = field "progress_ms" (VNum 0) cur /\
    field "device" (VDict []) cur = VDict dev /\
    device t = field "name" (VStr "Unknown Device") dev /\
    lookup "images" alb = Some images /\
    (if truthy images then image <~ first images ;; subscript image "url"
     else Some VNone) = Some (image_url t).
Proof.
  eexists; apply (playing_track_sound (Playback sample_playback));
    vm_compute; reflexivity.
Defined.

Lemma lookup_some_truthy (k : string) (d : list (string * value)) (x : value) :
  lookup k d = Some x -> truthy (VDict d) = true.
Proof. destruct d; [discriminate|reflexivity]. Qed.

Lemma each_names (objs : list value) (names : list string) :
  Forall2 (fun o n => subscript o "name" = Some (VStr n)) objs names ->
  each (fun o => subscript o "name") objs = Some (map VStr names).
Proof.
  induction 1 as [|o n objs names H _ IH]; [reflexivity|].
  cbn [each map]; rewrite H; cbn [and_then]; now rewrite IH.
Qed.

Lemma join_names (sep : string) (names : list string) :
  join sep (map VStr names) = Some (String.concat sep names).
Proof.
  unfold join.
  assert (E : each as_str (map VStr names) = Some names).
  { induction names as [|n names IH]; [reflexivity|].
    cbn [map each as_str and_then]; now rewrite IH. }
  now rewrite E.
Qed.

(** X10: for a playback that is playing a track, the track returned is
    read off the payload field by field.  With [is_playing] true, an item of
    type "track" that has an id, a name, a list of artist objects with
    names, a duration, a popularity and an album with a name, a release
    date and a list of images (the first with a URL), and a device that is
    absent or an object, [get_currently_playing] returns: the item's id,
    name, duration and popularity; the artists' names joined by ", "; the
    album's name; as year the first four characters of the release date,
    or "Unknown" for an empty date; the progress, 0 when absent; the
    device's name, "Unknown Device" when device or name is absent; and the
    URL of the first image, null when there is no image. *)
Theorem playing_track_complete
    (cur item alb : list (string * value))
    (track_id name album_name duration pop url : value)
    (objs images : list value) (names : list string) (release_date : string) :
  truthy (field "is_playing" (VBool false) cur) = true ->
  lookup "item" cur = Some (VDict item) ->
  lookup "type" item = Some (VStr "track") ->
  lookup "id" item = Some track_id ->
  lookup "name" item = Some name ->
  lookup "artists" item = Some (VList objs) ->
  Forall2 (fun o n => subscript o "name" = Some (VStr n)) objs names ->
  lookup "album" item = Some (VDict alb) ->
  lookup "name" alb = Some album_name ->
  lookup "release_date" alb = Some (VStr release_date) ->
  lookup "images" alb = Some (VList images) ->
  match images with
  | [] => True
  | image :: _ => subscript image "url" = Some url
  end ->
  lookup "duration_ms" item = Some duration ->
  lookup "popularity" item = Some pop ->
  match lookup "device" cur with
  | None | Some (VDict _) => True
  | Some _ => False
  end ->
  get_currently_playing (Playback (VDict cur)) =
  Some {| id := track_id;
          title := name;
          artist := String.concat ", " names;
          album := album_name;
          year := VStr (if String.eqb release_date "" then "Unknown"
                        else substring 0 4 release_date);
          duration_ms := duration;
          popularity := pop;
          progress_ms := field "progress_ms" (VNum 0) cur;
          device := match lookup "device" cur with
                    | Some (VDict dev) =>
                        field "name" (VStr "Unknown Device") dev
                    | _ => VStr "Unknown Device"
                    end;
          image_url := match images with
                       | [] => VNone
                       | _ :: _ => url
                       end |}.
Proof.
  intros Hp Hi Hty Hid Hn Har Hnames Hal Han Hrd Him Hurl Hd Hpop Hdev.
  unfold get_currently_playing, playing.
  rewrite (lookup_some_truthy _ _ _ Hi); cbn [negb].
  unfold dict_get at 1; cbn [get]; fold (field "is_playing" (VBool false) cur).
  cbn [and_then]; rewrite Hp; cbn [negb].
  unfold dict_get at 1; cbn [get]; rewrite Hi; cbn [and_then].
  rewrite (lookup_some_truthy _ _ _ Hty); cbn [negb].
  unfold dict_get at 1; cbn [get]; rewrite Hty; cbn [and_then is_track].
  rewrite String.eqb_refl; cbn [negb subscript].
  rewrite Hid, Hn, Har; cbn [and_then iterate].
  rewrite (each_names _ _ Hnames); cbn [and_then].
  rewrite join_names, Hal; cbn [and_then subscript].
  rewrite Han, Hrd, Hd, Hpop, Him; cbn [and_then truthy slice4].
  unfold dict_get, get; fold (field "progress_ms" (VNum 0) cur).
  destruct (String.eqb release_date ""); cbn [negb and_then];
destruct (lookup "device" cur) as [[| | | | |dev]|]; try contradiction;
    cbn [and_then];
    (destruct images as [|image rest];
     [reflexivity | cbn [List.length Nat.eqb negb first and_then];
                    rewrite Hurl; reflexivity]).
Qed.

Lemma playing_track_complete_witness :
  get_currently_playing (Playback sample_playback) =
  Some {| id := VStr "3z8h0TU7ReDPLIbEnYhWZb";
          title := VStr "Under Pressure";
          artist := "Queen, David Bowie";
          album := VStr "Hot Space";
          year := VStr "1982";
          duration_ms := VNum 248440;
          popularity := VNum 80;
          progress_ms := VNum 1000;
          device := VStr "Unknown Device";
          image_url := VStr "https://i.scdn.co/image/1" |}.
Proof.
  apply (playing_track_complete sample_current sample_item sample_album
           (VStr "3z8h0TU7ReDPLIbEnYhWZb") (VStr "Under Pressure")
           (VStr "Hot Space") (VNum 248440) (VNum 80)
           (VStr "https://i.scdn.co/image/1")
           [VDict [("name", VStr "Queen")];
            VDict [("name", VStr "David Bowie")]]
           [VDict [("url", VStr "https://i.scdn.co/image/1")]]
           ["Queen"; "David Bowie"] "1982-05-21");
    try reflexivity; try exact I.
  repeat constructor.
Defined.

End PlaybackFacts.
